(** * quiz_app.py: the chapter quiz as a session-state machine

    A shallow embedding of [src/quiz_app.py].  The program is a Streamlit
    script: every user interaction re-executes the script from the top against
    the persistent [st.session_state]; widget calls return what the user did,
    and [st.rerun()] / [st.stop()] abort the current execution.  A script run
    is modelled in a small monad that reads the widget values of the run,
    threads the session state and the rendered page, and can raise one of the
    control signals. *)

From Stdlib Require Import ZArith List String Ascii Bool Lia Permutation.
From Stdlib Require Import DecimalString.
Import ListNotations.

Open Scope string_scope.
Open Scope Z_scope.

(** ** Data *)

(** One row of a chapter CSV (columns of section "Extract question data"). *)
Record Question := mkQuestion {
  question : string;
  optionA : string;
  optionB : string;
  optionC : string;
  correctAnswer : string;
  explanation : string
}.

(** A DataFrame after [reset_index(drop=True)]: rows indexed [0 .. n-1].
    The frames are those of the input format, with the six columns in every
    row; a file that lacks a column is not represented. *)
Definition DataFrame := list Question.

(** What [pd.read_csv] does for a path: a frame, one of the two exceptions
    [load_questions] catches, or any other exception (named by its class:
    [EmptyDataError] for an empty file, [UnicodeDecodeError],
    [PermissionError], ...), which [load_questions] lets through. *)
Inductive ReadCsv :=
| CsvOk (df : DataFrame)
| ParserError (e : string)
| FileNotFoundError
| OtherException (exception : string).

(** [st.session_state].  The five scalar keys are initialised by the
    [__main__] block before [main()] runs, so they are always present;
    ["shuffled_df"] is the one key tested with [not in], [None] stands for
    its absence. *)
Record SessionState := mkSession {
  csv_file : option string;
  answered : bool;
  current_question : Z;
  selected_answer : option string;
  score : Z;
  shuffled_df : option DataFrame
}.

(** The session after the [__main__] block ran on an empty session state. *)
Definition initial_session : SessionState :=
  {| csv_file := None; answered := false; current_question := 0;
     selected_answer := None; score := 0; shuffled_df := None |}.

(** What a script run puts on the page, in order. *)
Inductive Element :=
| Title (s : string)
| Write (s : string)
| Subheader (s : string)
| Radio (label : string) (options : list string)
| Button (label : string) (disabled : bool)
| Success (s : string)
| Error (s : string)
| Info (s : string)
| ScoreBar (correct_count answered_count : Z)
| Traceback (exception : string).

(** The position the user picked in the three-option radio. *)
Inductive Pick := Pick0 | Pick1 | Pick2.

Definition pick_index (p : Pick) : nat :=
  match p with Pick0 => 0%nat | Pick1 => 1%nat | Pick2 => 2%nat end.

(** The browser side of one script run: the button that was clicked (by its
    label), what the radio holds ([None]: the user never touched it, so the
    widget is at its [index] argument), and the draws of the random
    generator. *)
Record Frontend := mkFrontend {
  clicked : option string;
  radio_answer : option Pick;
  random_state : list nat
}.

(** ** The script monad *)

Inductive Signal :=
| RerunException
| StopException
| Uncaught (exception : string).

Record Runtime := mkRuntime {
  session_state : SessionState;
  page : list Element
}.

Inductive Outcome (A : Type) :=
| Normal (a : A)
| Raised (e : Signal).
Arguments Normal {A} a.
Arguments Raised {A} e.

Definition Script (A : Type) : Type := Frontend -> Runtime -> Runtime * Outcome A.

Definition ret {A} (a : A) : Script A := fun _ r => (r, Normal a).

Definition bind {A B} (c : Script A) (k : A -> Script B) : Script B :=
  fun fe r =>
    match c fe r with
    | (r', Normal a) => k a fe r'
    | (r', Raised e) => (r', Raised e)
    end.

Definition raise {A} (e : Signal) : Script A := fun _ r => (r, Raised e).

Declare Scope script_scope.
Delimit Scope script_scope with script.
Notation "x <- c ;; k" := (bind c (fun x => k))
  (at level 61, c at next level, right associativity) : script_scope.
Notation "c ;; k" := (bind c (fun _ => k))
  (at level 61, right associativity) : script_scope.
Open Scope script_scope.

Definition session : Script SessionState := fun _ r => (r, Normal (session_state r)).
Definition frontend : Script Frontend := fun fe r => (r, Normal fe).

Definition update (f : SessionState -> SessionState) : Script unit :=
  fun _ r => ({| session_state := f (session_state r); page := page r |}, Normal tt).

Definition emit (e : Element) : Script unit :=
  fun _ r => ({| session_state := session_state r; page := page r ++ [e] |}, Normal tt).

(** Assignments to the keys of [st.session_state]. *)
Definition set_csv_file (v : option string) : Script unit :=
  update (fun s => {| csv_file := v; answered := answered s;
    current_question := current_question s; selected_answer := selected_answer s;
    score := score s; shuffled_df := shuffled_df s |}).
Definition set_answered (v : bool) : Script unit :=
  update (fun s => {| csv_file := csv_file s; answered := v;
    current_question := current_question s; selected_answer := selected_answer s;
    score := score s; shuffled_df := shuffled_df s |}).
Definition set_current_question (v : Z) : Script unit :=
  update (fun s => {| csv_file := csv_file s; answered := answered s;
    current_question := v; selected_answer := selected_answer s;
    score := score s; shuffled_df := shuffled_df s |}).
Definition set_selected_answer (v : option string) : Script unit :=
  update (fun s => {| csv_file := csv_file s; answered := answered s;
    current_question := current_question s; selected_answer := v;
    score := score s; shuffled_df := shuffled_df s |}).
Definition set_score (v : Z) : Script unit :=
  update (fun s => {| csv_file := csv_file s; answered := answered s;
    current_question := current_question s; selected_answer := selected_answer s;
    score := v; shuffled_df := shuffled_df s |}).
Definition set_shuffled_df (v : DataFrame) : Script unit :=
  update (fun s => {| csv_file := csv_file s; answered := answered s;
    current_question := current_question s; selected_answer := selected_answer s;
    score := score s; shuffled_df := Some v |}).

(** ** The Streamlit calls the script makes *)

Definition st_title (s : string) : Script unit := emit (Title s).
Definition st_write (s : string) : Script unit := emit (Write s).
Definition st_subheader (s : string) : Script unit := emit (Subheader s).
Definition st_success (s : string) : Script unit := emit (Success s).
Definition st_error (s : string) : Script unit := emit (Error s).
Definition st_info (s : string) : Script unit := emit (Info s).
Definition st_stop {A} : Script A := raise StopException.
Definition st_rerun {A} : Script A := raise RerunException.

(** [st.button(label, disabled=d)]: true in the run that follows a click on
    the button.  [disabled] only changes how the button is drawn: whether a
    click can happen is the browser's business, see [offered] below. *)
Definition st_button (label : string) (disabled : bool) : Script bool :=
  emit (Button label disabled) ;;
  fe <- frontend ;;
  ret (match clicked fe with
       | Some l => String.eqb l label
       | None => false
       end).

(** [st.radio(label, options, index=i, key=...)]: the option the widget
    holds, [options[i]] while the user has not chosen. *)
Definition st_radio (label : string) (options : list string) (index : nat)
  : Script string :=
  emit (Radio label options) ;;
  fe <- frontend ;;
  ret (nth (match radio_answer fe with
            | Some p => pick_index p
            | None => index
            end) options "").

(** [str(n)] for a Python int. *)
Definition str (n : Z) : string := NilZero.string_of_int (Z.to_int n).

(** [len(df)]. *)
Definition len (df : DataFrame) : Z := Z.of_nat (List.length df).

(** [df.loc[i, column]] on a frame indexed [0 .. n-1]: the row, [KeyError]
    outside. *)
Definition loc (df : DataFrame) (i : Z) : Script Question :=
  if i <? 0 then raise (Uncaught "KeyError")
  else match nth_error df (Z.to_nat i) with
       | Some row => ret row
       | None => raise (Uncaught "KeyError")
       end.

(** [d[key]] on a dict given as its literal, keys pairwise distinct. *)
Fixpoint getitem (d : list (string * string)) (key : string) : Script string :=
  match d with
  | [] => raise (Uncaught "KeyError")
  | (k, v) :: d' => if String.eqb k key then ret v else getitem d' key
  end.

(** [df.sample(frac=1).reset_index(drop=True)]: all rows, in an order the
    random generator decides.  Each row is put at the position the next draw
    names among the rows already placed; every ordering of the rows is the
    result of some draws. *)
Definition insert_at {A} (n : nat) (x : A) (l : list A) : list A :=
  firstn n l ++ x :: skipn n l.

Fixpoint sample (draws : list nat) (df : DataFrame) : DataFrame :=
  match df with
  | [] => []
  | row :: rest =>
      insert_at (Nat.modulo (hd 0%nat draws) (S (List.length rest))) row
                (sample (tl draws) rest)
  end.

(** ** The script *)

Section QuizApp.

(** The chapter files on disk, fixed while the app runs. *)
Variable read_csv : string -> ReadCsv.

(** [load_questions(csv_file)]: the two [except] clauses, any other
    exception propagates.  [@st.cache_data] memoises returned frames only;
    [read_csv] is a function, so the cache is not observable. *)
Definition load_questions (file : option string) : Script DataFrame :=
  match file with
  | None => raise (Uncaught "ValueError")
  | Some path =>
      match read_csv path with
      | CsvOk df => ret df
      | ParserError e => st_error ("Error loading CSV: " ++ e) ;; st_stop
      | FileNotFoundError =>
          st_error "CSV file not found. Please check the file path." ;; st_stop
      | OtherException e => raise (Uncaught e)
      end
  end.

(** [display_score_bar()]; the HTML bar is kept as its two counts. *)
Definition display_score_bar : Script unit :=
  s <- session ;;
  let answered_count := current_question s in
  let correct_count := score s in
  if answered_count =? 0 then ret tt
  else emit (ScoreBar correct_count answered_count).

(** The five assignments of a "Back to Main Menu" click, then [st.rerun()]. *)
Definition back_to_main_menu : Script unit :=
  set_csv_file None ;;
  set_current_question 0 ;;
  set_answered false ;;
  set_selected_answer None ;;
  set_score 0 ;;
  st_rerun.

(** [selected_answer == correct_ans]. *)
Definition answer_eqb (selected : option string) (correct_ans : string) : bool :=
  match selected with
  | Some a => String.eqb a correct_ans
  | None => false
  end.

Definition quiz : Script unit :=
  s <- session ;;
  match shuffled_df s with
  | None =>
      df <- load_questions (csv_file s) ;;
      fe <- frontend ;;
      set_shuffled_df (sample (random_state fe) df)
  | Some _ => ret tt
  end ;;
  s <- session ;;
  let shuffled := match shuffled_df s with Some df => df | None => [] end in
  let q_idx := current_question s in
  if q_idx >=? len shuffled then
    st_write "Quiz finished! You've gone through all the questions." ;;
    display_score_bar ;;
    back <- st_button "Back to Main Menu" false ;;
    if back then back_to_main_menu else ret tt
  else
    row <- loc shuffled q_idx ;;
    let question_text := question row in
    let correct_ans := correctAnswer row in
    st_subheader ("Question " ++ str (q_idx + 1)) ;;
    st_write question_text ;;
    let labelA := "A) " ++ optionA row in
    let labelB := "B) " ++ optionB row in
    let labelC := "C) " ++ optionC row in
    let labels := [labelA; labelB; labelC] in
    let label_to_letter := [(labelA, "A"); (labelB, "B"); (labelC, "C")] in
    selected_label <- st_radio "Select your answer:" labels 0 ;;
    letter <- getitem label_to_letter selected_label ;;
    set_selected_answer (Some letter) ;;
    s <- session ;;
    submit_clicked <- st_button "Submit" (answered s) ;;
    next_clicked <- st_button "Next Question" false ;;
    s <- session ;;
    (if submit_clicked && negb (answered s) then
       set_answered true ;;
       s <- session ;;
       set_current_question (current_question s + 1) ;;
       s <- session ;;
       (if answer_eqb (selected_answer s) correct_ans then
          st_success "Correct! âœ…" ;;
          s <- session ;;
          set_score (score s + 1)
        else
          let correct_option_text :=
            if String.eqb correct_ans "A" then labelA
            else if String.eqb correct_ans "B" then labelB
            else if String.eqb correct_ans "C" then labelC
            else "" in
          st_error ("Incorrect! The correct answer is " ++ correct_option_text)) ;;
       st_info ("Explanation: " ++ explanation row) ;;
       display_score_bar
     else ret tt) ;;
    s <- session ;;
    (if next_clicked && answered s then
       set_selected_answer None ;;
       st_rerun
     else ret tt) ;;
    st_write "---" ;;
    back <- st_button "Back to Main Menu" false ;;
    if back then back_to_main_menu else ret tt.

(** One [if st.button(<chapter>): ...] block of the menu. *)
Definition chapter_button (label file : string) : Script unit :=
  pressed <- st_button label false ;;
  if pressed then
    set_csv_file (Some file) ;;
    set_current_question 0 ;;
    set_answered false ;;
    set_selected_answer None ;;
    set_score 0 ;;
    st_rerun
  else ret tt.

Definition main : Script unit :=
  st_title "Quiz Menu" ;;
  s <- session ;;
  match csv_file s with
  | None =>
      st_write "**Please choose which chapter quiz you want to take:**" ;;
      chapter_button "Chapter 1 - Introduction to ESG Investing" "chapter1.csv" ;;
      chapter_button "Chapter 2 - The ESG Market" "chapter2.csv" ;;
      chapter_button "Chapter 3 - Environmental Factors" "chapter3.csv" ;;
      chapter_button "Chapter 4 - Social Factors" "chapter4.csv" ;;
      chapter_button "Chapter 5 - Governance Factors" "chapter5.csv" ;;
      chapter_button "Chapter 6 - Engagement and Stewardship" "chapter6.csv" ;;
      chapter_button "Chapter 7 - ESG Analysis, Valuation, and Integration"
                     "chapter7.csv" ;;
      chapter_button "Chapter 8 - Integrated Portfolio Construction and Management"
                     "chapter8.csv" ;;
      chapter_button
        "Chapter 9 - Investment Mandates, Portfolio Analytics, and Client Reporting"
        "chapter9.csv" ;;
      st_stop
  | Some _ => quiz
  end.

End QuizApp.

(** ** Interactions *)

(** [on_choice_change()], the radio's [on_change] callback; Streamlit calls
    it before the run that follows a change of the radio. *)
Definition on_choice_change : Script unit := set_answered false.

(** What the user operates: a button (named by its label) or the radio. *)
Inductive Action :=
| Click (label : string)
| ChangeRadio.

(** One interaction: the widget operated, what [st.radio] yields in the
    run(s) it triggers (the user's pick while the same widget stays on the
    page, [None] for a widget Streamlit creates anew), and the draws
    available to [sample]. *)
Record Interaction := mkInteraction {
  action : Action;
  radio : option Pick;
  draws : list nat
}.

Definition frontend_of (i : Interaction) : Frontend :=
  {| clicked := match action i with Click l => Some l | ChangeRadio => None end;
     radio_answer := radio i;
     random_state := draws i |}.

(** The re-execution [st.rerun()] asks for: same widget values, no button
    reported as clicked. *)
Definition rerun_of (i : Interaction) : Frontend :=
  {| clicked := None; radio_answer := radio i; random_state := draws i |}.

(** What is left when a run ends: an uncaught exception is shown on the
    page, [st.stop()] and a normal end leave the page as rendered. *)
Definition settle (res : Runtime * Outcome unit) : Runtime :=
  match res with
  | (r, Raised (Uncaught e)) =>
      {| session_state := session_state r; page := page r ++ [Traceback e] |}
  | (r, _) => r
  end.

(** The session the script starts from: the callback has run. *)
Definition before_run (s : SessionState) (i : Interaction) : SessionState :=
  match action i with
  | ChangeRadio =>
      session_state (fst (on_choice_change (frontend_of i)
                            {| session_state := s; page := [] |}))
  | Click _ => s
  end.

Section Interact.

Variable read_csv : string -> ReadCsv.

(** One execution of the script on a blank page. *)
Definition run (fe : Frontend) (s : SessionState) : Runtime * Outcome unit :=
  main read_csv fe {| session_state := s; page := [] |}.

(** A full interaction: the callback (for the radio), the run, and the
    re-execution when the run ended in [st.rerun()]. *)
Definition interact (s : SessionState) (i : Interaction) : Runtime :=
  match run (frontend_of i) (before_run s i) with
  | (r, Raised RerunException) => settle (run (rerun_of i) (session_state r))
  | res => settle res
  end.

(** The browser only lets the user operate what the page shows: an enabled
    button, or the radio. *)
Definition offered (pg : list Element) (a : Action) : bool :=
  match a with
  | Click l =>
      existsb (fun e => match e with
                        | Button l' false => String.eqb l l'
                        | _ => false
                        end) pg
  | ChangeRadio =>
      existsb (fun e => match e with Radio _ _ => true | _ => false end) pg
  end.

Definition browse (r : Runtime) (i : Interaction) : Runtime :=
  if offered (page r) (action i) then interact (session_state r) i else r.

(** Opening the app: the first run, on the initial session. *)
Definition open_app : Runtime :=
  settle (run {| clicked := None; radio_answer := None; random_state := [] |}
              initial_session).

Definition browse_all (trace : list Interaction) : Runtime :=
  fold_left browse trace open_app.

End Interact.

(** ** Vocabulary of the statements *)

(** The stored question order; no order is stored before the first load. *)
Definition question_order (s : SessionState) : DataFrame :=
  match shuffled_df s with Some df => df | None => [] end.

(** [0 <= score <= position <= length(questionOrder)]. *)
Definition Inv (s : SessionState) : Prop :=
  0 <= score s /\
  score s <= current_question s /\
  current_question s <= len (question_order s).

(** The letter [label_to_letter] gives for what the radio holds. *)
Definition letter_of (r : option Pick) : string :=
  match r with
  | None | Some Pick0 => "A"
  | Some Pick1 => "B"
  | Some Pick2 => "C"
  end.

(** The menu of [main], as (button label, file) pairs. *)
Definition chapters : list (string * string) :=
  [("Chapter 1 - Introduction to ESG Investing", "chapter1.csv");
   ("Chapter 2 - The ESG Market", "chapter2.csv");
   ("Chapter 3 - Environmental Factors", "chapter3.csv");
   ("Chapter 4 - Social Factors", "chapter4.csv");
   ("Chapter 5 - Governance Factors", "chapter5.csv");
   ("Chapter 6 - Engagement and Stewardship", "chapter6.csv");
   ("Chapter 7 - ESG Analysis, Valuation, and Integration", "chapter7.csv");
   ("Chapter 8 - Integrated Portfolio Construction and Management",
    "chapter8.csv");
   ("Chapter 9 - Investment Mandates, Portfolio Analytics, and Client Reporting",
    "chapter9.csv")].

(** What the page shows for a failed read: the message of the [except]
    clause that caught it, or the traceback of the exception none caught. *)
Definition load_failure (res : ReadCsv) : list Element :=
  match res with
  | CsvOk _ => []
  | ParserError e => [Error ("Error loading CSV: " ++ e)]
  | FileNotFoundError =>
      [Error "CSV file not found. Please check the file path."]
  | OtherException e => [Traceback e]
  end.

(** The sessions reached from the initial one by any interactions, offered
    by the page or not. *)
Definition interact_all (read_csv : string -> ReadCsv) (trace : list Interaction)
  : SessionState :=
  fold_left (fun s i => session_state (interact read_csv s i)) trace
            initial_session.

(** The text the Submit handler shows for a wrong answer to [row]. *)
Definition incorrect_message (row : Question) : string :=
  "Incorrect! The correct answer is " ++
  (if String.eqb (correctAnswer row) "A" then "A) " ++ optionA row
   else if String.eqb (correctAnswer row) "B" then "B) " ++ optionB row
   else if String.eqb (correctAnswer row) "C" then "C) " ++ optionC row
   else "").

(** The widgets of the page for the question [row] shown at index [k]. *)
Definition question_widgets (k : Z) (row : Question) (submit_disabled : bool)
  : list Element :=
  [Title "Quiz Menu";
   Subheader ("Question " ++ str (k + 1));
   Write (question row);
   Radio "Select your answer:"
         ["A) " ++ optionA row; "B) " ++ optionB row; "C) " ++ optionC row];
   Button "Submit" submit_disabled;
   Button "Next Question" false].

Definition page_footer : list Element :=
  [Write "---"; Button "Back to Main Menu" false].

Definition submit (r : option Pick) (d : list nat) : Interaction :=
  {| action := Click "Submit"; radio := r; draws := d |}.
Definition next (r : option Pick) (d : list nat) : Interaction :=
  {| action := Click "Next Question"; radio := r; draws := d |}.
Definition reset (r : option Pick) (d : list nat) : Interaction :=
  {| action := Click "Back to Main Menu"; radio := r; draws := d |}.
Definition selectOption (r : option Pick) (d : list nat) : Interaction :=
  {| action := ChangeRadio; radio := r; draws := d |}.
Definition selectChapter (label : string) (r : option Pick) (d : list nat)
  : Interaction :=
  {| action := Click label; radio := r; draws := d |}.

(** ** Summaries of a run *)

(** What a single execution of the script can do to the session. *)
Definition run_facts (s : SessionState) (fe : Frontend)
  (res : Runtime * Outcome unit) : Prop :=
  let s' := session_state (fst res) in
  (Inv s -> Inv s') /\
  (clicked fe = None ->
     snd res <> Raised RerunException /\
     csv_file s' = csv_file s /\ answered s' = answered s /\
     current_question s' = current_question s /\ score s' = score s) /\
  (0 <= current_question s -> current_question s < current_question s' ->
     answered s' = true) /\
  (csv_file s = None -> csv_file s' <> None ->
     answered s' = false /\ current_question s' = 0 /\ score s' = 0) /\
  (0 <= current_question s -> snd res <> Raised RerunException ->
     csv_file s' <> None -> current_question s' < len (question_order s') ->
     selected_answer s' <> None) /\
  (0 <= current_question s -> 0 <= current_question s') /\
  (forall df, shuffled_df s = Some df -> shuffled_df s' = Some df).

Definition same_progress (s s' : SessionState) : Prop :=
  score s' = score s /\
  current_question s' = current_question s /\
  answered s' = answered s.

(** The sessions on which a run of the script reaches no question: the menu,
    a chapter that does not load, a position outside the stored order. *)
Definition no_question_shown (read_csv : string -> ReadCsv) (s : SessionState)
  : Prop :=
  match csv_file s with
  | None => True
  | Some path =>
      match shuffled_df s with
      | Some df => current_question s < 0 \/ len df <= current_question s
      | None =>
          match read_csv path with
          | CsvOk df => current_question s < 0 \/ len df <= current_question s
          | _ => True
          end
      end
  end.

Definition submit_facts (read_csv : string -> ReadCsv) (s : SessionState)
  (res : Runtime * Outcome unit) : Prop :=
  let s' := session_state (fst res) in
  snd res <> Raised RerunException /\
  (answered s = true -> same_progress s s') /\
  (no_question_shown read_csv s -> same_progress s s') /\
  (answered s' = true \/ no_question_shown read_csv s').



(** ** A concrete run: two chapters on disk, one broken file *)

Module Scenario.

Definition qa : Question :=
  {| question := "Which letter does the E in ESG stand for?";
     optionA := "Environmental"; optionB := "Economic"; optionC := "Ethical";
     correctAnswer := "A"; explanation := "ESG: Environmental, Social, Governance." |}.

Definition qb : Question :=
  {| question := "Which factor covers board independence?";
     optionA := "Environmental"; optionB := "Governance"; optionC := "Social";
     correctAnswer := "B"; explanation := "Board structure is a governance matter." |}.

Definition qc : Question :=
  {| question := "Which market is the largest by ESG assets?";
     optionA := "Japan"; optionB := "Canada"; optionC := "Europe";
     correctAnswer := "C"; explanation := "Europe holds the largest share." |}.

(** [chapter1.csv] has two rows (answers A and B), [chapter2.csv] one row,
    [chapter3.csv] does not parse, the other files are missing. *)
Definition disk (path : string) : ReadCsv :=
  if String.eqb path "chapter1.csv" then CsvOk [qa; qb]
  else if String.eqb path "chapter2.csv" then CsvOk [qc]
  else if String.eqb path "chapter3.csv" then
    ParserError "Error tokenizing data."
  else FileNotFoundError.

Definition chapter1 : string := "Chapter 1 - Introduction to ESG Investing".
Definition chapter2 : string := "Chapter 2 - The ESG Market".

(** Chapter 1 selected with draws [1; 0] (stored order [qb; qa]); then its
    first question answered "B" and submitted. *)
Definition selected : list Interaction :=
  [selectChapter chapter1 None [1; 0]%nat].
Definition submitted : list Interaction :=
  selected ++ [selectOption (Some Pick1) []; submit (Some Pick1) []].

(** The sessions these two traces reach (see [reach_after_selection] and
    [reach_after_submit]). *)
Definition after_selection : SessionState :=
  {| csv_file := Some "chapter1.csv"; answered := false; current_question := 0;
     selected_answer := Some "A"; score := 0; shuffled_df := Some [qb; qa] |}.

Definition after_submit : SessionState :=
  {| csv_file := Some "chapter1.csv"; answered := true; current_question := 1;
     selected_answer := Some "B"; score := 1; shuffled_df := Some [qb; qa] |}.

End Scenario.

(** ** Vocabulary of the further properties *)

(** The file the menu gives for a button label, [None] for any other
    label. *)
Definition chapter_file (label : string) : option string :=
  match find (fun c => String.eqb label (fst c)) chapters with
  | Some c => Some (snd c)
  | None => None
  end.

(** The page of the chapter menu. *)
Definition menu_page : list Element :=
  Title "Quiz Menu"
  :: Write "**Please choose which chapter quiz you want to take:**"
  :: map (fun c => Button (fst c) false) chapters.

(** The page shown once the position has reached the end of the order. *)
Definition finished_page (s : SessionState) : list Element :=
  [Title "Quiz Menu";
   Write "Quiz finished! You've gone through all the questions."]
  ++ (if current_question s =? 0 then []
      else [ScoreBar (score s) (current_question s)])
  ++ [Button "Back to Main Menu" false].

(** The three letters [label_to_letter] can give. *)
Definition is_letter (a : option string) : Prop :=
  a = Some "A" \/ a = Some "B" \/ a = Some "C".

(** The stored order comes from a chapter file of the menu. *)
Definition from_chapter (read_csv : string -> ReadCsv) (df : DataFrame) : Prop :=
  exists label path rows,
    In (label, path) chapters /\
    read_csv path = CsvOk rows /\
    Permutation rows df.

(** Further facts on what one run of the script does, page included. *)
Definition run_progress (read_csv : string -> ReadCsv) (s : SessionState)
  (fe : Frontend) (res : Runtime * Outcome unit) : Prop :=
  let s' := session_state (fst res) in
  let pg := page (fst res) in
  (csv_file s' = csv_file s ->
     score s <= score s' <= score s + 1 /\
     current_question s <= current_question s' <= current_question s + 1 /\
     score s' - score s <= current_question s' - current_question s) /\
  (csv_file s = None ->
     csv_file s' = match clicked fe with
                   | Some l => chapter_file l
                   | None => None
                   end) /\
  (csv_file s <> None -> csv_file s' = csv_file s \/ csv_file s' = None) /\
  (shuffled_df s' = shuffled_df s \/
   (shuffled_df s = None /\
    exists path rows,
      csv_file s = Some path /\ read_csv path = CsvOk rows /\
      shuffled_df s' = Some (sample (random_state fe) rows))) /\
  (snd res <> Raised RerunException ->
   forall c a, In (ScoreBar c a) pg ->
     c = score s' /\ a = current_question s' /\ a <> 0) /\
  (selected_answer s' = selected_answer s \/ selected_answer s' = None \/
   is_letter (selected_answer s')).

(** The sessions reached from [s] by a sequence of interactions. *)
Definition interact_from (read_csv : string -> ReadCsv) (s : SessionState)
  (trace : list Interaction) : SessionState :=
  fold_left (fun s i => session_state (interact read_csv s i)) trace s.

(** Where the selected file and the stored order of a session come from. *)
Definition from_menu (read_csv : string -> ReadCsv) (s : SessionState) : Prop :=
  (forall path, csv_file s = Some path ->
     exists label, In (label, path) chapters) /\
  (forall df, shuffled_df s = Some df -> from_chapter read_csv df).

(** What the run of a click on Next Question keeps. *)
Definition next_facts (s : SessionState) (res : Runtime * Outcome unit)
  : Prop :=
  score (session_state (fst res)) = score s /\
  current_question (session_state (fst res)) = current_question s /\
  csv_file (session_state (fst res)) = csv_file s.

(** Two more sessions of the concrete run: chapter 1 in load order with
    both questions submitted, and a chapter whose only row gives its
    answer in lower case. *)
Definition finished_session : SessionState :=
  {| csv_file := Some "chapter1.csv"; answered := true; current_question := 2;
     selected_answer := Some "C"; score := 1;
     shuffled_df := Some [Scenario.qa; Scenario.qb] |}.

Definition q_lower : Question :=
  {| question := "Which letter does the G in ESG stand for?";
     optionA := "Growth"; optionB := "Governance"; optionC := "Green";
     correctAnswer := "b"; explanation := "G is for Governance." |}.

Definition lower_session : SessionState :=
  {| csv_file := Some "chapter5.csv"; answered := false; current_question := 0;
     selected_answer := Some "A"; score := 0; shuffled_df := Some [q_lower] |}.

(** ** Proof tools *)

(** Decide the string comparisons whose outcome is fixed by the literals. *)
Ltac eval_eqb :=
  repeat match goal with
  | |- context [String.eqb ?a ?a] => rewrite (String.eqb_refl a)
  | |- context [String.eqb ?a ?b] =>
      let v := eval vm_compute in (String.eqb a b) in
      lazymatch v with
      | true => change (String.eqb a b) with true
      | false => change (String.eqb a b) with false
      end
  end.

Ltac unfold_script :=
  cbv beta iota zeta delta
    [interact before_run run settle main quiz chapter_button back_to_main_menu
     display_score_bar load_questions on_choice_change
     st_button st_radio st_title st_write st_subheader st_success st_error
     st_info st_stop st_rerun getitem loc answer_eqb
     set_csv_file set_answered set_current_question set_selected_answer
     set_score set_shuffled_df update emit session frontend bind ret raise
     frontend_of rerun_of action radio draws clicked radio_answer random_state
     session_state page fst snd csv_file answered current_question
     selected_answer score shuffled_df pick_index nth app append andb negb
     question_order letter_of load_failure].

(** Run the script as far as the known values allow. *)
Ltac exec := repeat (progress (unfold_script; eval_eqb)).

(** Case split on the innermost test the execution is stuck on. *)
Ltac break :=
  match goal with
  | |- context [match ?x with _ => _ end] =>
      lazymatch x with
      | context [match _ with _ => _ end] => fail
      | _ => destruct x eqn:?
      end
  end.

Ltac arith :=
  unfold len in *;
  repeat match goal with
  | H : (_ >=? _) = _ |- _ => rewrite Z.geb_leb in H
  | H : (_ <=? _) = true |- _ => apply Z.leb_le in H
  | H : (_ <=? _) = false |- _ => apply Z.leb_gt in H
  | H : (_ <? _) = true |- _ => apply Z.ltb_lt in H
  | H : (_ <? _) = false |- _ => apply Z.ltb_ge in H
  | H : (_ =? _) = true |- _ => apply Z.eqb_eq in H
  | H : (_ =? _) = false |- _ => apply Z.eqb_neq in H
  | H : nth_error _ _ = None |- _ => apply nth_error_None in H
  end;
  cbn [List.length] in *; try lia.

(** ** The shuffle *)

Lemma insert_at_Permutation {A} (n : nat) (x : A) (l : list A) :
  Permutation (x :: l) (insert_at n x l).
Proof.
  unfold insert_at.
  rewrite <- (firstn_skipn n l) at 1.
  apply Permutation_middle.
Qed.

(** [sample] keeps the rows: same multiset, whatever the draws. *)
Lemma sample_Permutation (d : list nat) (df : DataFrame) :
  Permutation df (sample d df).
Proof.
  revert d; induction df as [|row rest IH]; intros d; cbn [sample].
  - constructor.
  - etransitivity; [|apply insert_at_Permutation].
    constructor. apply IH.
Qed.

Lemma sample_length (d : list nat) (df : DataFrame) :
  List.length (sample d df) = List.length df.
Proof. symmetry. apply Permutation_length, sample_Permutation. Qed.

(** With all draws at zero the rows come back in load order. *)
Lemma sample_no_draws (df : DataFrame) : sample [] df = df.
Proof.
  induction df as [|row rest IH]; cbn [sample hd tl]; [reflexivity|].
  rewrite IH, Nat.Div0.mod_0_l. reflexivity.
Qed.

(** ** One script run *)

Section RunFacts.

Variable read_csv : string -> ReadCsv.

(** Every path of [main] is run, for any widget values. *)
Lemma run_summary (fe : Frontend) (s : SessionState) :
  run_facts s fe (run read_csv fe s).
Proof.
  generalize (eq_refl (run read_csv fe s)).
  generalize (run read_csv fe s) at 2 3.
  intros res; revert res.
  destruct s as [csv ans pos sel sc sh], fe as [[l|] r d]; exec.
  all: repeat (break; exec).
  all: intros res <-; unfold run_facts, Inv;
    cbn [fst snd session_state clicked csv_file answered current_question
         score selected_answer shuffled_df question_order].
  all: repeat split; intros; try discriminate; try congruence; arith.
Qed.

End RunFacts.

(** ** Whole interactions *)

Section InteractFacts.

Variable read_csv : string -> ReadCsv.

Lemma session_settle (res : Runtime * Outcome unit) :
  session_state (settle res) = session_state (fst res).
Proof. destruct res as [r [[]|[]]]; reflexivity. Qed.

Lemma before_run_fields (s : SessionState) (i : Interaction) :
  csv_file (before_run s i) = csv_file s /\
  current_question (before_run s i) = current_question s /\
  score (before_run s i) = score s /\
  shuffled_df (before_run s i) = shuffled_df s /\
  (forall l, action i = Click l -> before_run s i = s) /\
  (action i = ChangeRadio ->
     answered (before_run s i) = false /\ clicked (frontend_of i) = None).
Proof.
  unfold before_run, frontend_of; destruct (action i); cbn;
    repeat split; intros; try discriminate; reflexivity.
Qed.

(** An interaction is one run, or two when the first asks for a rerun; the
    second run reports no click, so it cannot ask again. *)
Lemma interact_runs (s : SessionState) (i : Interaction) :
  let first := run read_csv (frontend_of i) (before_run s i) in
  (snd first <> Raised RerunException /\
   session_state (interact read_csv s i) = session_state (fst first)) \/
  (snd first = Raised RerunException /\
   let second := run read_csv (rerun_of i) (session_state (fst first)) in
   snd second <> Raised RerunException /\
   session_state (interact read_csv s i) = session_state (fst second)).
Proof.
  cbv zeta. unfold interact.
  destruct (run read_csv (frontend_of i) (before_run s i)) as [r o] eqn:E.
  destruct o as [[]|[| |e]]; cbn [fst snd];
    try (left; split; [discriminate | rewrite session_settle; reflexivity]).
  right. split; [reflexivity|]. rewrite session_settle. split; [|reflexivity].
  apply (run_summary read_csv (rerun_of i) (session_state r)). reflexivity.
Qed.

Lemma Inv_before_run (s : SessionState) (i : Interaction) :
  Inv s -> Inv (before_run s i).
Proof.
  unfold Inv, question_order.
  destruct (before_run_fields s i) as (_ & -> & -> & -> & _). trivial.
Qed.

Lemma interact_Inv (s : SessionState) (i : Interaction) :
  Inv s -> Inv (session_state (interact read_csv s i)).
Proof.
  intros H. apply (Inv_before_run s i) in H.
  destruct (interact_runs s i) as [[_ ->]|[_ [_ ->]]].
  - now apply run_summary.
  - now apply run_summary, run_summary.
Qed.

Lemma Inv_initial : Inv initial_session.
Proof. unfold Inv; cbn; lia. Qed.

Lemma interact_all_snoc (trace : list Interaction) (i : Interaction) :
  interact_all read_csv (trace ++ [i]) =
  session_state (interact read_csv (interact_all read_csv trace) i).
Proof. unfold interact_all. rewrite fold_left_app. reflexivity. Qed.

Lemma interact_all_Inv (trace : list Interaction) :
  Inv (interact_all read_csv trace).
Proof.
  induction trace as [|i trace IH] using rev_ind.
  - apply Inv_initial.
  - rewrite interact_all_snoc. now apply interact_Inv.
Qed.

Lemma browse_Inv (r : Runtime) (i : Interaction) :
  Inv (session_state r) -> Inv (session_state (browse read_csv r i)).
Proof.
  intros H. unfold browse.
  destruct (offered (page r) (action i)); [now apply interact_Inv | exact H].
Qed.

Lemma browse_all_Inv (trace : list Interaction) :
  Inv (session_state (browse_all read_csv trace)).
Proof.
  unfold browse_all.
  induction trace as [|i trace IH] using rev_ind.
  - apply Inv_initial.
  - rewrite fold_left_app. now apply browse_Inv.
Qed.

End InteractFacts.

(** ** The session invariant and the [answered] flag *)

Section Invariants.

Variable read_csv : string -> ReadCsv.

(** C3.  From the initial session, after any sequence of interactions
    (chapter buttons, radio changes, Submit, Next Question, Back to Main
    Menu, with any widget values and random draws, whether the page offers
    them or not) the session satisfies
    [0 <= score <= current_question <= len(shuffled_df)]; the same holds of
    every session the browser can reach through the pages it is shown. *)
Theorem C3_score_position_invariant (trace : list Interaction) :
  (let s := interact_all read_csv trace in
   0 <= score s /\ score s <= current_question s /\
   current_question s <= len (question_order s)) /\
  (let s := session_state (browse_all read_csv trace) in
   0 <= score s /\ score s <= current_question s /\
   current_question s <= len (question_order s)).
Proof.
  split.
  - apply (interact_all_Inv read_csv trace).
  - apply (browse_all_Inv read_csv trace).
Qed.

(** C4, as the code has it.  In a session satisfying the invariant, an
    interaction that advances [current_question] leaves [answered] true (the
    position only advances inside the Submit handler, which sets the flag in
    the same step), and an interaction that selects a chapter from the menu
    leaves [answered] false, with position and score at 0. *)
Theorem C4_answered_after_advance_and_selection
  (s : SessionState) (i : Interaction) :
  Inv s ->
  let s' := session_state (interact read_csv s i) in
  (current_question s < current_question s' -> answered s' = true) /\
  (csv_file s = None -> csv_file s' <> None ->
     answered s' = false /\ current_question s' = 0 /\ score s' = 0).
Proof.
  intros HI s'. subst s'.
  assert (Hpos : 0 <= current_question (before_run s i)).
  { destruct (before_run_fields s i) as (_ & -> & _). unfold Inv in HI. lia. }
  destruct (before_run_fields s i) as (Hcsv & Hq & _ & _ & Hclick & Hradio).
  pose proof (run_summary read_csv (frontend_of i) (before_run s i))
    as (_ & Hnone & Hadv & Hsel & _ & Hnn).
  destruct (interact_runs read_csv s i) as [[_ ->]|[_ [_ ->]]].
  - rewrite <- Hq, <- Hcsv. split; [now apply Hadv | now apply Hsel].
  - pose proof (run_summary read_csv (rerun_of i)
                  (session_state (fst (run read_csv (frontend_of i) (before_run s i)))))
      as (_ & Hsame & _).
    destruct (Hsame eq_refl) as (_ & -> & -> & -> & ->).
    rewrite <- Hq, <- Hcsv. split; [now apply Hadv | now apply Hsel].
Qed.

End Invariants.

(** ** The question page *)

Lemma loc_in_range (df : DataFrame) (k : Z) (row : Question) :
  0 <= k -> nth_error df (Z.to_nat k) = Some row ->
  (k >=? len df) = false /\ (k <? 0) = false.
Proof.
  intros Hk Hrow.
  assert (Hlt : (Z.to_nat k < List.length df)%nat)
    by (apply nth_error_Some; congruence).
  unfold len. rewrite Z.geb_leb. split.
  - apply Z.leb_gt. lia.
  - apply Z.ltb_ge. lia.
Qed.


(** Run the script up to the widgets of a question known to be in range. *)
Ltac on_question Hk Hrow :=
  let Hge := fresh in let Hlt := fresh in
  destruct (loc_in_range _ _ _ Hk Hrow) as [Hge Hlt];
  repeat (progress (exec; rewrite ?Hge, ?Hlt, ?Hrow)).

Section QuestionPage.

Variable read_csv : string -> ReadCsv.

(** Submit on an unanswered question at index [k]: the whole outcome. *)
Lemma submit_question (f : string) (df : DataFrame) (k sc : Z)
  (sel : option string) (row : Question) (r : option Pick) (d : list nat) :
  0 <= k -> nth_error df (Z.to_nat k) = Some row ->
  let correct := String.eqb (letter_of r) (correctAnswer row) in
  let sc' := if correct then sc + 1 else sc in
  interact read_csv
    {| csv_file := Some f; answered := false; current_question := k;
       selected_answer := sel; score := sc; shuffled_df := Some df |}
    (submit r d) =
  {| session_state :=
       {| csv_file := Some f; answered := true; current_question := k + 1;
          selected_answer := Some (letter_of r); score := sc';
          shuffled_df := Some df |};
     page :=
       question_widgets k row false ++
       [if correct then Success "Correct! âœ…"
        else Error (incorrect_message row);
        Info ("Explanation: " ++ explanation row);
        ScoreBar sc' (k + 1)] ++
       page_footer |}.
Proof.
  intros Hk Hrow.
  assert (Hnz : (k + 1 =? 0) = false) by (apply Z.eqb_neq; lia).
  unfold submit, question_widgets, page_footer, incorrect_message.
  on_question Hk Hrow.
  destruct r as [[]|]; exec;
    destruct (String.eqb _ (correctAnswer row)); exec;
    rewrite Hnz; reflexivity.
Qed.


(** A change of the radio while a question can be shown. *)
Lemma select_question (f : string) (df : DataFrame) (k sc : Z) (a : bool)
  (sel : option string) (row : Question) (r : option Pick) (d : list nat) :
  0 <= k -> nth_error df (Z.to_nat k) = Some row ->
  interact read_csv
    {| csv_file := Some f; answered := a; current_question := k;
       selected_answer := sel; score := sc; shuffled_df := Some df |}
    (selectOption r d) =
  {| session_state :=
       {| csv_file := Some f; answered := false; current_question := k;
          selected_answer := Some (letter_of r); score := sc;
          shuffled_df := Some df |};
     page := question_widgets k row false ++ page_footer |}.
Proof.
  intros Hk Hrow.
  unfold selectOption, question_widgets, page_footer.
  on_question Hk Hrow.
  destruct r as [[]|]; exec; reflexivity.
Qed.

End QuestionPage.

(** ** Submitting twice *)

Section SubmitTwice.

Variable read_csv : string -> ReadCsv.

Lemma submit_run (r : option Pick) (d : list nat) (s : SessionState) :
  submit_facts read_csv s (run read_csv (frontend_of (submit r d)) s).
Proof.
  generalize (eq_refl (run read_csv (frontend_of (submit r d)) s)).
  generalize (run read_csv (frontend_of (submit r d)) s) at 2 3.
  intros res; revert res.
  destruct s as [csv ans pos sel sc sh]; unfold submit; exec.
  all: repeat (break; exec).
  all: intros res <-; unfold submit_facts, same_progress, no_question_shown;
    cbn [fst snd session_state clicked csv_file answered current_question
         score selected_answer shuffled_df].
  all: repeat match goal with H : read_csv _ = _ |- _ => rewrite H end.
  all: unfold len in *; rewrite ?sample_length in *.
  all: repeat split; intros; try discriminate; try tauto; arith.
  all: rewrite ?sample_length in *; lia.
Qed.

Lemma interact_submit (r : option Pick) (d : list nat) (s : SessionState) :
  session_state (interact read_csv s (submit r d)) =
  session_state (fst (run read_csv (frontend_of (submit r d)) s)).
Proof.
  destruct (interact_runs read_csv s (submit r d)) as [[_ E]|[E _]].
  - exact E.
  - exfalso. revert E. apply (submit_run r d s).
Qed.

End SubmitTwice.

(** ** Claims about the transitions *)

Section Transitions.

Variable read_csv : string -> ReadCsv.

(** C5, as the code has it.  Two clicks on Submit with no interaction in
    between change score and position at most once: whatever the session
    and the widget values, the second click leaves [score],
    [current_question] and [answered] as the first one left them.  (A
    change of the radio between the two clicks runs [on_choice_change],
    which clears [answered]: the second click is then processed.) *)
Theorem C5_second_submit_is_noop (s : SessionState)
  (r1 r2 : option Pick) (d1 d2 : list nat) :
  let s1 := session_state (interact read_csv s (submit r1 d1)) in
  let s2 := session_state (interact read_csv s1 (submit r2 d2)) in
  score s2 = score s1 /\
  current_question s2 = current_question s1 /\
  answered s2 = answered s1.
Proof.
  cbv zeta. rewrite !interact_submit.
  set (s1 := session_state (fst (run read_csv (frontend_of (submit r1 d1)) s))).
  destruct (submit_run read_csv r1 d1 s) as (_ & _ & _ & Hs1).
  fold s1 in Hs1.
  destruct (submit_run read_csv r2 d2 s1) as (_ & Hans & Hidle & _).
  destruct Hs1 as [H|H]; [apply Hans | apply Hidle]; exact H.
Qed.



(** C7, as the code has it.  A change of the radio is never a no-op on an
    answered session: the [on_change] callback sets [answered] to false,
    which lets the next Submit through; score and position are unchanged,
    and when the position is inside the stored order the question at that
    position is shown with Submit enabled and [selected_answer] assigned
    from the radio. *)
Theorem C7_selection_clears_answered (s : SessionState)
  (r : option Pick) (d : list nat) :
  let rt := interact read_csv s (selectOption r d) in
  answered (session_state rt) = false /\
  score (session_state rt) = score s /\
  current_question (session_state rt) = current_question s /\
  (forall f df row,
     csv_file s = Some f -> shuffled_df s = Some df ->
     0 <= current_question s ->
     nth_error df (Z.to_nat (current_question s)) = Some row ->
     selected_answer (session_state rt) = Some (letter_of r) /\
     page rt = (question_widgets (current_question s) row false ++ page_footer)%list).
Proof.
  cbv zeta.
  assert (Hfields :
    answered (session_state (interact read_csv s (selectOption r d))) = false /\
    score (session_state (interact read_csv s (selectOption r d))) = score s /\
    current_question (session_state (interact read_csv s (selectOption r d)))
      = current_question s).
  { destruct (before_run_fields s (selectOption r d))
      as (_ & Hq & Hsc & _ & _ & Hradio).
    destruct (Hradio eq_refl) as [Hans Hnone].
    pose proof (run_summary read_csv (frontend_of (selectOption r d))
                  (before_run s (selectOption r d))) as (_ & Hsame & _).
    destruct (Hsame Hnone) as (Hno & _ & Ha & Hk & Hs).
    destruct (interact_runs read_csv s (selectOption r d)) as [[_ E]|[E _]];
      [|contradiction].
    rewrite E, Ha, Hk, Hs, Hans, Hq, Hsc. repeat split. }
  destruct Hfields as (Ha & Hs & Hk). repeat split; try assumption.
  all: destruct s as [csv ans k sel sc sh];
    cbn [csv_file shuffled_df current_question] in *; subst;
    rewrite (select_question read_csv f df k sc ans sel row r d) by assumption;
    reflexivity.
Qed.

End Transitions.

Section LoadAndFeedback.

Variable read_csv : string -> ReadCsv.



(** C9.  Submit on an unanswered question at index [k] of the stored order
    advances the position to [k + 1] and scores against the
    [correctAnswer] of row [k]; the page it leaves shows the question text
    of row [k], the verdict for row [k] (with row [k]'s option text when
    wrong), the explanation of row [k] and the updated score bar. *)
Theorem C9_feedback_from_pre_advance_index (s : SessionState) (f : string)
  (df : DataFrame) (row : Question) (r : option Pick) (d : list nat) :
  csv_file s = Some f ->
  shuffled_df s = Some df ->
  answered s = false ->
  0 <= current_question s ->
  nth_error df (Z.to_nat (current_question s)) = Some row ->
  let k := current_question s in
  let rt := interact read_csv s (submit r d) in
  let correct := String.eqb (letter_of r) (correctAnswer row) in
  let score' := if correct then score s + 1 else score s in
  current_question (session_state rt) = k + 1 /\
  score (session_state rt) = score' /\
  page rt =
    (question_widgets k row false ++
     [if correct then Success "Correct! âœ…" else Error (incorrect_message row);
      Info ("Explanation: " ++ explanation row);
      ScoreBar score' (k + 1)] ++
     page_footer)%list.
Proof.
  destruct s as [csv ans k sel sc sh];
    cbn [csv_file shuffled_df answered current_question score];
    intros -> -> -> Hk Hrow. cbv zeta.
  rewrite (submit_question read_csv f df k sc sel row r d Hk Hrow).
  repeat split.
Qed.

Lemma interact_selected (s : SessionState) (i : Interaction) :
  0 <= current_question s ->
  let s' := session_state (interact read_csv s i) in
  csv_file s' <> None ->
  current_question s' < len (question_order s') ->
  selected_answer s' <> None.
Proof.
  intros Hk. cbv zeta.
  destruct (before_run_fields s i) as (_ & Hq & _).
  rewrite <- Hq in Hk.
  pose proof (run_summary read_csv (frontend_of i) (before_run s i))
    as (_ & _ & _ & _ & Hsel & Hnn).
  destruct (interact_runs read_csv s i) as [[Hno ->]|[_ [Hno ->]]].
  - now apply Hsel.
  - apply run_summary; [now apply Hnn | exact Hno].
Qed.

(** C10, as the code has it.  (1) In every session reached from the
    initial one, when a chapter is selected and the position is inside the
    stored order, so that a question is displayed, [selected_answer] is set.
    (2) Submit on a displayed question with the radio untouched is
    processed exactly when [answered] is false: it is then scored with
    answer "A" (the position advances and the score grows exactly when the
    question's [correctAnswer] is "A"); while [answered] is true it leaves
    score, position and [answered] as they are. *)
Theorem C10_selected_answer_always_set :
  (forall trace,
     let s := interact_all read_csv trace in
     csv_file s <> None ->
     current_question s < len (question_order s) ->
     selected_answer s <> None) /\
  (forall s f df row d,
     csv_file s = Some f ->
     shuffled_df s = Some df ->
     0 <= current_question s ->
     nth_error df (Z.to_nat (current_question s)) = Some row ->
     let s' := session_state (interact read_csv s (submit None d)) in
     if answered s
     then score s' = score s /\
          current_question s' = current_question s /\
          answered s' = true
     else selected_answer s' = Some "A" /\
          answered s' = true /\
          current_question s' = current_question s + 1 /\
          score s' = if String.eqb "A" (correctAnswer row)
                     then score s + 1 else score s).
Proof.
  split.
  - intros trace. destruct trace as [|i trace _] using rev_ind.
    + cbn. congruence.
    + rewrite interact_all_snoc. apply interact_selected.
      pose proof (interact_all_Inv read_csv trace) as HI.
      unfold Inv in HI. lia.
  - intros [csv ans k sel sc sh] f df row d;
      cbn [csv_file shuffled_df answered current_question score];
      intros -> -> Hk Hrow. cbv zeta. destruct ans.
    + rewrite interact_submit.
      destruct (submit_run read_csv None d
                  {| csv_file := Some f; answered := true;
                     current_question := k; selected_answer := sel;
                     score := sc; shuffled_df := Some df |})
        as (_ & Hkeep & _).
      destruct (Hkeep eq_refl) as (Hsc & Hpos & Hans).
      cbn [score current_question answered] in Hsc, Hpos, Hans.
      now repeat split.
    + rewrite (submit_question read_csv f df k sc sel row None d Hk Hrow).
      repeat split.
Qed.

End LoadAndFeedback.


(** ** The stored order *)

Section StoredOrder.

Variable read_csv : string -> ReadCsv.

(** Once an order is stored, no interaction replaces or removes it: the
    script shuffles only while ["shuffled_df"] is absent, and nothing
    deletes the key. *)
Lemma order_is_kept (s : SessionState) (i : Interaction) (df : DataFrame) :
  shuffled_df s = Some df ->
  shuffled_df (session_state (interact read_csv s i)) = Some df.
Proof.
  intros H.
  destruct (before_run_fields s i) as (_ & _ & _ & Hsh & _).
  rewrite <- Hsh in H.
  destruct (interact_runs read_csv s i) as [[_ ->]|[_ [_ ->]]].
  - now apply run_summary.
  - now apply run_summary, run_summary.
Qed.

(** The first chapter selected in a fresh session is loaded and shuffled:
    the stored order is a permutation of the rows of its file. *)
Lemma first_selection_shuffles (label file : string) (df : DataFrame)
  (r : option Pick) (d : list nat) :
  In (label, file) chapters ->
  read_csv file = CsvOk df ->
  let s' := session_state
              (interact read_csv initial_session (selectChapter label r d)) in
  csv_file s' = Some file /\
  shuffled_df s' = Some (sample d df) /\
  Permutation df (question_order s').
Proof.
  intros Hin Hload. cbn [In chapters] in Hin.
  repeat (destruct Hin as [Hin|Hin];
          [injection Hin as <- <-; unfold selectChapter, initial_session;
           exec; rewrite Hload; exec; repeat (break; exec);
           repeat split; apply sample_Permutation|]).
  contradiction.
Qed.

End StoredOrder.

(** Every ordering of the rows is the result of some draws. *)
Lemma sample_complete (df order : DataFrame) :
  Permutation df order -> exists d, sample d df = order.
Proof.
  revert order; induction df as [|row rest IH]; intros order Hperm.
  - apply Permutation_nil in Hperm. subst. now exists [].
  - assert (Hin : In row order)
      by (eapply Permutation_in; [exact Hperm | now left]).
    destruct (in_split _ _ Hin) as (l1 & l2 & ->).
    apply Permutation_cons_app_inv in Hperm.
    destruct (IH _ Hperm) as [d Hd].
    exists (List.length l1 :: d). cbn [sample hd tl]. rewrite Hd.
    assert (Hlen : (List.length l1 < S (List.length rest))%nat).
    { apply Permutation_length in Hperm. rewrite Hperm, length_app. lia. }
    rewrite Nat.mod_small by exact Hlen.
    unfold insert_at.
    rewrite firstn_app, skipn_app, firstn_all, skipn_all, Nat.sub_diag.
    cbn [firstn skipn]. now rewrite app_nil_r.
Qed.

(** ** The concrete run *)

Import Scenario.

Lemma reach_after_selection :
  session_state (browse_all disk selected) = after_selection.
Proof. vm_compute. reflexivity. Qed.

Lemma reach_after_submit :
  session_state (browse_all disk submitted) = after_submit.
Proof. vm_compute. reflexivity. Qed.

(** C1, evaluated.  Chapter 1 is selected (stored order [qb; qa]), Back to
    Main Menu is clicked, chapter 2 is selected: [csv_file] names chapter 2,
    whose file holds the single row [qc], but the stored order is still the
    one shuffled for chapter 1, it is no permutation of chapter 2's rows,
    and the page shows a chapter 1 question. *)
Theorem C1_order_reused_after_reset :
  let rt := browse_all disk
              (selected ++
               [reset None []; selectChapter chapter2 None [0]%nat]) in
  csv_file (session_state rt) = Some "chapter2.csv" /\
  disk "chapter2.csv" = CsvOk [qc] /\
  shuffled_df (session_state rt) = Some [qb; qa] /\
  ~ Permutation [qc] (question_order (session_state rt)) /\
  In (Write (question qb)) (page rt).
Proof.
  vm_compute. repeat split.
  - intros H. apply Permutation_length in H. discriminate H.
  - right. right. left. reflexivity.
Qed.

(** C2, evaluated.  After a submitted question (score 1, position 1), Back
    to Main Menu resets [csv_file], position, [answered],
    [selected_answer] and score, and shows the menu; the shuffled order
    stays stored. *)
Theorem C2_reset_keeps_question_order :
  let before := browse_all disk submitted in
  let after := browse disk before (reset (Some Pick1) []) in
  score (session_state before) = 1 /\
  offered (page before) (Click "Back to Main Menu") = true /\
  csv_file (session_state after) = None /\
  current_question (session_state after) = 0 /\
  answered (session_state after) = false /\
  selected_answer (session_state after) = None /\
  score (session_state after) = 0 /\
  shuffled_df (session_state after) = Some [qb; qa] /\
  session_state after <> initial_session.
Proof.
  vm_compute. repeat split. discriminate.
Qed.

(** C4 fails as stated: Submit on the first question advances the position
    from 0 to 1 and [answered] is true, not false, right after. *)
Lemma C4_answered_true_after_advance :
  let before := browse_all disk selected in
  let after := browse disk before (submit None []) in
  current_question (session_state before)
    < current_question (session_state after) /\
  answered (session_state after) <> false.
Proof.
  vm_compute. split; [reflexivity | discriminate].
Qed.

(** C5 fails as stated: with a change of the radio (and no Next Question)
    between two clicks on Submit, the second click is processed; the
    position moves from 1 to 2, whether the radio then yields the picked
    option or, as a new widget, its default. *)
Lemma C5_selection_between_submits :
  let first := browse_all disk submitted in
  let second_picked :=
    browse_all disk
      (submitted ++ [selectOption (Some Pick1) []; submit (Some Pick1) []]) in
  let second_default :=
    browse_all disk (submitted ++ [selectOption None []; submit None []]) in
  current_question (session_state first) = 1 /\
  current_question (session_state second_picked) = 2 /\
  current_question (session_state second_default) = 2 /\
  score (session_state second_default) <> score (session_state first).
Proof.
  vm_compute. repeat split. discriminate.
Qed.


(** C7 fails as stated: on the answered session the radio is on the page,
    changing it alters the session ([answered] becomes false), the new page
    offers Submit, and that Submit is processed. *)
Lemma C7_selection_is_not_noop :
  let before := browse_all disk submitted in
  let after := browse disk before (selectOption (Some Pick1) []) in
  let resubmitted := browse disk after (submit (Some Pick1) []) in
  answered (session_state before) = true /\
  offered (page before) ChangeRadio = true /\
  session_state after <> session_state before /\
  answered (session_state after) = false /\
  offered (page after) (Click "Submit") = true /\
  current_question (session_state resubmitted)
    = current_question (session_state before) + 1.
Proof.
  vm_compute. repeat split. discriminate.
Qed.


(** C10 fails as stated: on the second question, reached through Next
    Question with the radio untouched, a question is displayed but Submit
    is not offered, and a Submit without a change of the radio is not
    processed: position and score stay. *)
Lemma C10_submit_blocked_after_next :
  let before := browse_all disk (submitted ++ [next None []]) in
  let after := interact disk (session_state before) (submit None []) in
  csv_file (session_state before) <> None /\
  current_question (session_state before)
    < len (question_order (session_state before)) /\
  In (Write (question qa)) (page before) /\
  offered (page before) (Click "Submit") = false /\
  browse disk before (submit None []) = before /\
  current_question (session_state after)
    = current_question (session_state before) /\
  score (session_state after) = score (session_state before).
Proof.
  vm_compute. repeat split; try discriminate.
  right. right. left. reflexivity.
Qed.

(** The theorems above, applied to the concrete run. *)

Lemma C4_witness :
  Inv after_selection /\
  answered (session_state (interact disk after_selection (submit None [])))
  = true.
Proof.
  assert (HI : Inv after_selection) by (unfold Inv; cbn; lia).
  split; [exact HI|].
  destruct (C4_answered_after_advance_and_selection
              disk after_selection (submit None []) HI) as [Hadv _].
  apply Hadv. vm_compute. reflexivity.
Defined.


Lemma C7_witness :
  csv_file after_submit = Some "chapter1.csv" /\
  shuffled_df after_submit = Some [qb; qa] /\
  0 <= current_question after_submit /\
  nth_error [qb; qa] (Z.to_nat (current_question after_submit)) = Some qa /\
  answered (session_state
              (interact disk after_submit (selectOption (Some Pick1) [])))
  = false /\
  selected_answer (session_state
                     (interact disk after_submit (selectOption (Some Pick1) [])))
  = Some "B".
Proof.
  assert (Hk : 0 <= current_question after_submit)
    by (vm_compute; discriminate).
  destruct (C7_selection_clears_answered disk after_submit (Some Pick1) [])
    as (Hans & _ & _ & Hshown).
  destruct (Hshown "chapter1.csv" [qb; qa] qa eq_refl eq_refl Hk eq_refl)
    as [Hsel _].
  exact (conj eq_refl (conj eq_refl (conj Hk (conj eq_refl (conj Hans Hsel))))).
Defined.


Lemma C9_witness :
  csv_file after_selection = Some "chapter1.csv" /\
  shuffled_df after_selection = Some [qb; qa] /\
  answered after_selection = false /\
  0 <= current_question after_selection /\
  nth_error [qb; qa] (Z.to_nat (current_question after_selection)) = Some qb /\
  In (Write (question qb))
     (page (interact disk after_selection (submit (Some Pick1) []))) /\
  In (Info ("Explanation: " ++ explanation qb))
     (page (interact disk after_selection (submit (Some Pick1) []))) /\
  score (session_state (interact disk after_selection (submit (Some Pick1) [])))
  = 1.
Proof.
  assert (Hk : 0 <= current_question after_selection)
    by (vm_compute; discriminate).
  destruct (C9_feedback_from_pre_advance_index disk after_selection
              "chapter1.csv" [qb; qa] qb (Some Pick1) []
              eq_refl eq_refl eq_refl Hk eq_refl) as (_ & Hscore & Hpage).
  refine (conj eq_refl (conj eq_refl (conj eq_refl (conj Hk (conj eq_refl _))))).
  rewrite Hpage, Hscore.
  split; [|split].
  - right. right. left. reflexivity.
  - do 7 right. left. reflexivity.
  - reflexivity.
Defined.

Lemma C10_witness :
  csv_file (interact_all disk selected) <> None /\
  current_question (interact_all disk selected)
    < len (question_order (interact_all disk selected)) /\
  selected_answer (interact_all disk selected) <> None /\
  csv_file after_selection = Some "chapter1.csv" /\
  shuffled_df after_selection = Some [qb; qa] /\
  0 <= current_question after_selection /\
  nth_error [qb; qa] (Z.to_nat (current_question after_selection)) = Some qb /\
  selected_answer (session_state (interact disk after_selection (submit None [])))
  = Some "A" /\
  score (session_state (interact disk after_selection (submit None []))) = 0 /\
  0 <= current_question after_submit /\
  nth_error [qb; qa] (Z.to_nat (current_question after_submit)) = Some qa /\
  current_question (session_state (interact disk after_submit (submit None [])))
  = current_question after_submit.
Proof.
  assert (Hcsv : csv_file (interact_all disk selected) <> None)
    by (vm_compute; discriminate).
  assert (Hlt : current_question (interact_all disk selected)
                < len (question_order (interact_all disk selected)))
    by (vm_compute; reflexivity).
  assert (Hk : 0 <= current_question after_selection)
    by (vm_compute; discriminate).
  assert (Hk' : 0 <= current_question after_submit)
    by (vm_compute; discriminate).
  destruct (C10_selected_answer_always_set disk) as [Hset Hsubmit].
  pose proof (Hsubmit after_selection "chapter1.csv" [qb; qa] qb []
                eq_refl eq_refl Hk eq_refl) as Hopen.
  pose proof (Hsubmit after_submit "chapter1.csv" [qb; qa] qa []
                eq_refl eq_refl Hk' eq_refl) as Hlocked.
  cbv zeta in Hopen, Hlocked.
  change (answered after_selection) with false in Hopen.
  change (answered after_submit) with true in Hlocked.
  cbv iota in Hopen, Hlocked.
  destruct Hopen as (Hsel & _ & _ & Hscore).
  destruct Hlocked as (_ & Hsame & _).
  refine (conj Hcsv (conj Hlt (conj (Hset selected Hcsv Hlt) _))).
  refine (conj eq_refl (conj eq_refl (conj Hk (conj eq_refl _)))).
  exact (conj Hsel (conj Hscore (conj Hk' (conj eq_refl Hsame)))).
Defined.

(** The two-question walk of the specification, on chapter 1 in load order:
    answer A and submit, Next, answer C and submit, Next.  The score ends at
    1 of 2 and the finished page is shown; the last Next only redraws the
    page, its handler is not reached once the position is at the end. *)
Example scenario_two_questions :
  browse_all disk
    [selectChapter chapter1 None [];
     selectOption (Some Pick0) []; submit (Some Pick0) []; next None [];
     selectOption (Some Pick2) []; submit (Some Pick2) []; next None []]
  = {| session_state :=
         {| csv_file := Some "chapter1.csv"; answered := true;
            current_question := 2; selected_answer := Some "C"; score := 1;
            shuffled_df := Some [qa; qb] |};
       page := [Title "Quiz Menu";
                Write "Quiz finished! You've gone through all the questions.";
                ScoreBar 1 2;
                Button "Back to Main Menu" false] |}.
Proof. vm_compute. reflexivity. Qed.

(** A chapter without rows goes straight to the finished page, without a
    score bar. *)
Example scenario_empty_chapter :
  interact (fun _ => CsvOk []) initial_session (selectChapter chapter1 None [])
  = {| session_state :=
         {| csv_file := Some "chapter1.csv"; answered := false;
            current_question := 0; selected_answer := None; score := 0;
            shuffled_df := Some [] |};
       page := [Title "Quiz Menu";
                Write "Quiz finished! You've gone through all the questions.";
                Button "Back to Main Menu" false] |}.
Proof. vm_compute. reflexivity. Qed.

(** ** More on one script run *)

Ltac not_on_page Hin :=
  cbn [In] in Hin;
  repeat (destruct Hin as [Hin|Hin]; [discriminate Hin|]);
  exact Hin.

Ltac bar_on_page Hin :=
  cbn [In] in Hin;
  repeat (destruct Hin as [Hin|Hin];
          [first [discriminate Hin
                 | injection Hin as <- <-; repeat split; arith]|]);
  contradiction.

Ltac use_clicks :=
  unfold chapter_file; cbn [find chapters fst snd];
  repeat match goal with H : String.eqb _ _ = _ |- _ => rewrite H end.

Section RunProgress.

Variable read_csv : string -> ReadCsv.

Lemma run_progress_holds (fe : Frontend) (s : SessionState) :
  run_progress read_csv s fe (run read_csv fe s).
Proof.
  generalize (eq_refl (run read_csv fe s)).
  generalize (run read_csv fe s) at 2 3.
  intros res; revert res.
  destruct s as [csv ans pos sel sc sh], fe as [[l|] r d]; exec.
  all: repeat (break; exec).
  all: intros res <-; unfold run_progress, is_letter;
    cbn [fst snd session_state page clicked random_state csv_file answered
         current_question score selected_answer shuffled_df].
  all: split; [solve [intros Hcsv; try discriminate Hcsv; arith]|].
  all: split; [solve [intros; try discriminate; use_clicks; reflexivity]|].
  all: split; [solve [intros Hne;
                      first [left; reflexivity | right; reflexivity
                            | exfalso; apply Hne; reflexivity]]|].
  all: split; [solve [first [left; reflexivity
                            | right; split; [reflexivity|];
                              eexists _, _; repeat split;
                              first [reflexivity | eassumption]]]|].
  all: split; [solve [intros Hno bc ba Hin;
                      first [exfalso; apply Hno; reflexivity
                            | bar_on_page Hin]]|].
  all: solve [auto 6].
Qed.

End RunProgress.

(** ** More on whole interactions *)

Lemma chapter_file_In (label path : string) :
  chapter_file label = Some path -> In (label, path) chapters.
Proof.
  unfold chapter_file. destruct (find _ chapters) as [[l p]|] eqn:E;
    [|discriminate].
  intros [= <-]. apply find_some in E. destruct E as [Hin Heq].
  cbn [fst] in Heq. apply String.eqb_eq in Heq. now subst.
Qed.

Lemma In_chapter_file (label path : string) :
  In (label, path) chapters -> chapter_file label = Some path.
Proof.
  cbn [In chapters]. intros H.
  repeat (destruct H as [H|H]; [injection H as <- <-; reflexivity|]).
  contradiction.
Qed.

Section InteractProgress.

Variable read_csv : string -> ReadCsv.

(** The page of an interaction is the page of its last run. *)
Lemma interact_pages (s : SessionState) (i : Interaction) :
  let first := run read_csv (frontend_of i) (before_run s i) in
  (snd first <> Raised RerunException /\
   interact read_csv s i = settle first) \/
  (snd first = Raised RerunException /\
   let second := run read_csv (rerun_of i) (session_state (fst first)) in
   snd second <> Raised RerunException /\
   interact read_csv s i = settle second).
Proof.
  cbv zeta. unfold interact.
  destruct (run read_csv (frontend_of i) (before_run s i)) as [r o] eqn:E.
  destruct o as [[]|[| |e]]; cbn [fst snd];
    try (left; split; [discriminate | reflexivity]).
  right. split; [reflexivity|]. split; [|reflexivity].
  apply (run_summary read_csv (rerun_of i) (session_state r)). reflexivity.
Qed.

Lemma In_settle (res : Runtime * Outcome unit) (el : Element) :
  In el (page (settle res)) ->
  In el (page (fst res)) \/
  exists e, snd res = Raised (Uncaught e) /\ el = Traceback e.
Proof.
  destruct res as [r [[]|[| |e]]]; cbn [settle fst snd page]; auto.
  intros H. apply in_app_or in H. destruct H as [H|[H|[]]]; [now left|].
  right. exists e. now split.
Qed.

Lemma interact_score_bar (s : SessionState) (i : Interaction) (c a : Z) :
  In (ScoreBar c a) (page (interact read_csv s i)) ->
  c = score (session_state (interact read_csv s i)) /\
  a = current_question (session_state (interact read_csv s i)) /\
  a <> 0.
Proof.
  destruct (interact_pages s i) as [[Hno ->]|[_ [Hno ->]]];
    rewrite session_settle; intros Hin; apply In_settle in Hin;
    destruct Hin as [Hin|(e & _ & He)]; try discriminate He;
    revert Hin; now apply run_progress_holds.
Qed.

End InteractProgress.

(** ** Further properties: invariants of the reachable sessions *)

Section Reachable.

Variable read_csv : string -> ReadCsv.

Lemma open_app_page :
  open_app read_csv = {| session_state := initial_session; page := menu_page |}.
Proof. reflexivity. Qed.

(** X1.  On every page the browser can reach, a score bar shows the score
    and the position of the session, and the position it divides by is
    positive: [0 <= correct_count <= answered_count] and
    [0 < answered_count]. *)
Theorem X1_score_bar_well_defined (trace : list Interaction) (c a : Z) :
  In (ScoreBar c a) (page (browse_all read_csv trace)) ->
  c = score (session_state (browse_all read_csv trace)) /\
  a = current_question (session_state (browse_all read_csv trace)) /\
  0 <= c <= a /\ 0 < a.
Proof.
  assert (Hgen : forall trace,
    In (ScoreBar c a) (page (browse_all read_csv trace)) ->
    c = score (session_state (browse_all read_csv trace)) /\
    a = current_question (session_state (browse_all read_csv trace)) /\
    a <> 0).
  { clear trace. intros trace.
    induction trace as [|i trace IH] using rev_ind.
    - unfold browse_all. cbn [fold_left]. rewrite open_app_page.
      intros Hin. exfalso. not_on_page Hin.
    - unfold browse_all in *. rewrite fold_left_app. cbn [fold_left].
      unfold browse at 1 3 5.
      destruct (offered _ (action i)); [apply interact_score_bar | exact IH]. }
  intros Hin. destruct (Hgen trace Hin) as (Hc & Ha & Hnz).
  pose proof (browse_all_Inv read_csv trace) as (H0 & H1 & _).
  repeat split; try assumption; lia.
Qed.

(** X8.  An interaction that keeps the selected chapter moves the position
    forward by at most one question, and the score by at most as much: the
    score never decreases, and grows only together with the position. *)
Theorem X8_step_progress (s : SessionState) (i : Interaction) :
  let s' := session_state (interact read_csv s i) in
  csv_file s' = csv_file s ->
  score s <= score s' <= score s + 1 /\
  current_question s <= current_question s' <= current_question s + 1 /\
  score s' - score s <= current_question s' - current_question s.
Proof.
  cbv zeta.
  destruct (before_run_fields s i) as (Hcsv & Hq & Hsc & _).
  pose proof (run_progress_holds read_csv (frontend_of i) (before_run s i))
    as (Hstep & _).
  rewrite <- Hcsv, <- Hq, <- Hsc.
  destruct (interact_runs read_csv s i) as [[_ ->]|[_ [_ ->]]].
  - exact Hstep.
  - pose proof (run_summary read_csv (rerun_of i)
                  (session_state (fst (run read_csv (frontend_of i)
                                         (before_run s i)))))
      as (_ & Hsame & _).
    destruct (Hsame eq_refl) as (_ & -> & _ & -> & ->). exact Hstep.
Qed.

Lemma run_from_menu (fe : Frontend) (s : SessionState) :
  from_menu read_csv s ->
  from_menu read_csv (session_state (fst (run read_csv fe s))).
Proof.
  intros [Hfile Horder].
  pose proof (run_progress_holds read_csv fe s)
    as (_ & Hmenu & Hquiz & Hsh & _).
  assert (Hfile' : forall path,
            csv_file (session_state (fst (run read_csv fe s))) = Some path ->
            exists label, In (label, path) chapters).
  { intros path Hp. destruct (csv_file s) as [p|] eqn:E.
    - destruct Hquiz as [Hq|Hq]; [discriminate | | ]; rewrite Hq in Hp;
        [now apply Hfile | discriminate].
    - rewrite (Hmenu eq_refl) in Hp. destruct (clicked fe) as [l|];
        [|discriminate]. exists l. now apply chapter_file_In. }
  split; [exact Hfile'|].
  intros df Hdf. destruct Hsh as [Hsame|(Hnone & path & rows & Hp & Hl & Hs)].
  - apply Horder. now rewrite <- Hsame.
  - rewrite Hs in Hdf. injection Hdf as <-.
    destruct (Hfile path Hp) as [label Hin].
    exists label, path, rows. repeat split; try assumption.
    apply sample_Permutation.
Qed.

Lemma interact_from_menu (s : SessionState) (i : Interaction) :
  from_menu read_csv s ->
  from_menu read_csv (session_state (interact read_csv s i)).
Proof.
  intros H.
  assert (H0 : from_menu read_csv (before_run s i)).
  { unfold from_menu.
    destruct (before_run_fields s i) as (-> & _ & _ & -> & _). exact H. }
  destruct (interact_runs read_csv s i) as [[_ ->]|[_ [_ ->]]].
  - now apply run_from_menu.
  - now apply run_from_menu, run_from_menu.
Qed.

(** X3.  In every session reached from the initial one, the selected file
    is the file of a menu button, and a stored question order is a
    permutation of the rows of a chapter file of the menu: same rows, none
    lost, none repeated. *)
Theorem X3_order_from_chapter_file (trace : list Interaction) :
  (forall path, csv_file (interact_all read_csv trace) = Some path ->
     exists label, In (label, path) chapters) /\
  (forall df, shuffled_df (interact_all read_csv trace) = Some df ->
     exists label path rows,
       In (label, path) chapters /\
       read_csv path = CsvOk rows /\
       Permutation rows df /\ List.length df = List.length rows).
Proof.
  assert (H : from_menu read_csv (interact_all read_csv trace)).
  { induction trace as [|i trace IH] using rev_ind.
    - split; intros x Hx; discriminate Hx.
    - rewrite interact_all_snoc. now apply interact_from_menu. }
  destruct H as [Hfile Horder]. split; [exact Hfile|].
  intros df Hdf. destruct (Horder df Hdf) as (label & path & rows & H1 & H2 & H3).
  exists label, path, rows. repeat split; try assumption.
  symmetry. now apply Permutation_length.
Qed.

Lemma interact_letters (s : SessionState) (i : Interaction) :
  selected_answer s = None \/ is_letter (selected_answer s) ->
  selected_answer (session_state (interact read_csv s i)) = None \/
  is_letter (selected_answer (session_state (interact read_csv s i))).
Proof.
  intros H.
  assert (Hrun : forall fe s0,
    selected_answer s0 = None \/ is_letter (selected_answer s0) ->
    selected_answer (session_state (fst (run read_csv fe s0))) = None \/
    is_letter (selected_answer (session_state (fst (run read_csv fe s0))))).
  { intros fe s0 H0.
    pose proof (run_progress_holds read_csv fe s0)
      as (_ & _ & _ & _ & _ & [Hs|[Hs|Hs]]); auto.
    now rewrite Hs. }
  assert (H0 : selected_answer (before_run s i) = None \/
               is_letter (selected_answer (before_run s i))).
  { unfold before_run. destruct (action i); exact H. }
  destruct (interact_runs read_csv s i) as [[_ ->]|[_ [_ ->]]]; auto.
Qed.

(** X10.  In every session reached from the initial one,
    [selected_answer] is unset or one of the letters A, B, C, whatever the
    option texts of the questions are. *)
Theorem X10_selected_answer_is_a_letter (trace : list Interaction) :
  let a := selected_answer (interact_all read_csv trace) in
  a = None \/ a = Some "A" \/ a = Some "B" \/ a = Some "C".
Proof.
  cbv zeta. induction trace as [|i trace IH] using rev_ind.
  - now left.
  - rewrite interact_all_snoc. now apply interact_letters.
Qed.

Lemma interact_from_snoc (s : SessionState) (trace : list Interaction)
  (i : Interaction) :
  interact_from read_csv s (trace ++ [i]) =
  session_state (interact read_csv (interact_from read_csv s trace) i).
Proof. unfold interact_from. rewrite fold_left_app. reflexivity. Qed.

(** X2.  A stored question order is fixed: whatever interactions follow,
    in any number, the order stays as it was stored; the script shuffles
    only when no order is stored. *)
Theorem X2_order_never_reshuffled (s : SessionState)
  (trace : list Interaction) (df : DataFrame) :
  shuffled_df s = Some df ->
  shuffled_df (interact_from read_csv s trace) = Some df.
Proof.
  intros H. induction trace as [|i trace IH] using rev_ind.
  - exact H.
  - rewrite interact_from_snoc. now apply order_is_kept.
Qed.

End Reachable.

(** ** Further properties: the menu, the buttons and the edges *)

Section Pages.

Variable read_csv : string -> ReadCsv.

(** A click on anything but a chapter button redraws the menu. *)
Lemma menu_run (l : string) (r : option Pick) (d : list nat)
  (s : SessionState) :
  csv_file s = None ->
  chapter_file l = None ->
  run read_csv (frontend_of (selectChapter l r d)) s
  = ({| session_state := s; page := menu_page |}, Raised StopException).
Proof.
  destruct s as [csv ans k sel sc sh]; cbn [csv_file]; intros -> Hl.
  revert Hl. unfold selectChapter, menu_page. exec.
  repeat (break; exec); intros Hl;
    first [reflexivity | exfalso; revert Hl; use_clicks; discriminate].
Qed.

(** A click on a chapter button: the five assignments, then [st.rerun()]. *)
Lemma chapter_run (label file : string) (r : option Pick) (d : list nat)
  (s : SessionState) :
  In (label, file) chapters ->
  csv_file s = None ->
  let res := run read_csv (frontend_of (selectChapter label r d)) s in
  session_state (fst res)
  = {| csv_file := Some file; answered := false; current_question := 0;
       selected_answer := None; score := 0; shuffled_df := shuffled_df s |} /\
  snd res = Raised RerunException.
Proof.
  destruct s as [csv ans k sel sc sh]; cbn [csv_file]; intros Hin ->.
  cbn [In chapters] in Hin. unfold selectChapter.
  repeat (destruct Hin as [Hin|Hin];
          [injection Hin as <- <-; exec; split; reflexivity|]).
  contradiction.
Qed.

Lemma interact_chapter (label file : string) (r : option Pick) (d : list nat)
  (s : SessionState) :
  In (label, file) chapters ->
  csv_file s = None ->
  interact read_csv s (selectChapter label r d)
  = settle (run read_csv (rerun_of (selectChapter label r d))
              {| csv_file := Some file; answered := false;
                 current_question := 0; selected_answer := None; score := 0;
                 shuffled_df := shuffled_df s |}).
Proof.
  intros Hin Hcsv.
  destruct (chapter_run label file r d s Hin Hcsv) as [Hs Ho].
  unfold interact.
  change (before_run s (selectChapter label r d)) with s.
  destruct (run read_csv (frontend_of (selectChapter label r d)) s)
    as [rt o]. cbn [fst snd] in Hs, Ho. subst o. rewrite Hs. reflexivity.
Qed.

(** X4.  On the menu, a click leaves the menu exactly when its label is one
    of the nine chapter buttons: the session then names that chapter's file
    and starts at position 0, score 0, not answered, whatever these fields
    were; any other click leaves the session untouched and shows the menu
    again. *)
Theorem X4_menu_dispatch (s : SessionState) (l : string)
  (r : option Pick) (d : list nat) :
  csv_file s = None ->
  let rt := interact read_csv s (selectChapter l r d) in
  match chapter_file l with
  | Some file =>
      csv_file (session_state rt) = Some file /\
      current_question (session_state rt) = 0 /\
      score (session_state rt) = 0 /\
      answered (session_state rt) = false
  | None => rt = {| session_state := s; page := menu_page |}
  end.
Proof.
  intros Hcsv. cbv zeta. destruct (chapter_file l) as [file|] eqn:Hl.
  - apply chapter_file_In in Hl.
    rewrite (interact_chapter l file r d s Hl Hcsv), session_settle.
    pose proof (run_summary read_csv (rerun_of (selectChapter l r d))
                  {| csv_file := Some file; answered := false;
                     current_question := 0; selected_answer := None;
                     score := 0; shuffled_df := shuffled_df s |})
      as (_ & Hsame & _).
    destruct (Hsame eq_refl) as (_ & -> & -> & -> & ->).
    repeat split.
  - unfold interact.
    change (before_run s (selectChapter l r d)) with s.
    rewrite (menu_run l r d s Hcsv Hl). reflexivity.
Qed.

(** X12.  A chapter whose file loads without rows goes straight to the
    finished page: no question, no score bar, only Back to Main Menu. *)
Theorem X12_empty_chapter_is_finished (s : SessionState) (label file : string)
  (r : option Pick) (d : list nat) :
  In (label, file) chapters ->
  csv_file s = None ->
  shuffled_df s = None ->
  read_csv file = CsvOk [] ->
  interact read_csv s (selectChapter label r d)
  = {| session_state :=
         {| csv_file := Some file; answered := false; current_question := 0;
            selected_answer := None; score := 0; shuffled_df := Some [] |};
       page :=
         [Title "Quiz Menu";
          Write "Quiz finished! You've gone through all the questions.";
          Button "Back to Main Menu" false] |}.
Proof.
  intros Hin Hcsv Hsh Hload.
  rewrite (interact_chapter label file r d s Hin Hcsv), Hsh.
  unfold selectChapter. exec. rewrite Hload. exec. reflexivity.
Qed.

(** X13.  A chapter selected while no order is stored is loaded and
    shuffled, and the page shows the first question of the shuffled order
    as question 1, with Submit enabled, no feedback, and the answer taken
    from the radio. *)
Theorem X13_first_question_page (s : SessionState) (label file : string)
  (rows : DataFrame) (row : Question) (r : option Pick) (d : list nat) :
  In (label, file) chapters ->
  csv_file s = None ->
  shuffled_df s = None ->
  read_csv file = CsvOk rows ->
  nth_error (sample d rows) 0 = Some row ->
  interact read_csv s (selectChapter label r d)
  = {| session_state :=
         {| csv_file := Some file; answered := false; current_question := 0;
            selected_answer := Some (letter_of r); score := 0;
            shuffled_df := Some (sample d rows) |};
       page := question_widgets 0 row false ++ page_footer |}.
Proof.
  intros Hin Hcsv Hsh Hload Hrow.
  rewrite (interact_chapter label file r d s Hin Hcsv), Hsh.
  assert (Hk : 0 <= 0) by lia.
  change 0%nat with (Z.to_nat 0) in Hrow.
  unfold selectChapter, question_widgets, page_footer.
  exec. rewrite Hload. on_question Hk Hrow.
  destruct r as [[]|]; exec; reflexivity.
Qed.

(** X5.  Once the position has reached the end of the stored order, every
    click except Back to Main Menu (Submit and Next Question included)
    leaves the session as it is and shows the finished page, with the score
    bar unless nothing was answered. *)
Theorem X5_finished_is_final (s : SessionState) (f : string) (df : DataFrame)
  (l : string) (r : option Pick) (d : list nat) :
  csv_file s = Some f ->
  shuffled_df s = Some df ->
  len df <= current_question s ->
  l <> "Back to Main Menu" ->
  interact read_csv s {| action := Click l; radio := r; draws := d |}
  = {| session_state := s; page := finished_page s |}.
Proof.
  destruct s as [csv ans k sel sc sh];
    cbn [csv_file shuffled_df current_question]; intros -> -> Hk Hl.
  assert (Hge : (k >=? len df) = true)
    by (rewrite Z.geb_leb; apply Z.leb_le; exact Hk).
  assert (Hback : String.eqb l "Back to Main Menu" = false)
    by (apply String.eqb_neq; exact Hl).
  unfold finished_page; cbn [current_question score].
  exec. rewrite Hge. exec.
  destruct (k =? 0); exec; rewrite Hback; reflexivity.
Qed.

(** X6.  Back to Main Menu, on a question page or on the finished page,
    unselects the chapter, puts position and score back to 0, clears
    [answered] and [selected_answer], and shows the menu. *)
Theorem X6_back_shows_menu (s : SessionState) (f : string) (df : DataFrame)
  (r : option Pick) (d : list nat) :
  csv_file s = Some f ->
  shuffled_df s = Some df ->
  0 <= current_question s ->
  let rt := interact read_csv s (reset r d) in
  csv_file (session_state rt) = None /\
  current_question (session_state rt) = 0 /\
  score (session_state rt) = 0 /\
  answered (session_state rt) = false /\
  selected_answer (session_state rt) = None /\
  page rt = menu_page.
Proof.
  destruct s as [csv ans k sel sc sh];
    cbn [csv_file shuffled_df current_question]; intros -> -> Hk.
  unfold reset, menu_page. exec.
  repeat (break; exec);
    first [repeat split; reflexivity | exfalso; arith].
Qed.

Lemma next_run (r : option Pick) (d : list nat) (s : SessionState) :
  next_facts s (run read_csv (frontend_of (next r d)) s).
Proof.
  generalize (eq_refl (run read_csv (frontend_of (next r d)) s)).
  generalize (run read_csv (frontend_of (next r d)) s) at 2 3.
  intros res; revert res.
  destruct s as [csv ans pos sel sc sh]; unfold next; exec.
  all: repeat (break; exec).
  all: intros res <-; repeat split.
Qed.

(** X7.  Next Question never changes the score, the position or the
    selected chapter, in any session: the position advances at Submit, not
    at Next Question. *)
Theorem X7_next_keeps_score_and_position (s : SessionState)
  (r : option Pick) (d : list nat) :
  let s' := session_state (interact read_csv s (next r d)) in
  score s' = score s /\
  current_question s' = current_question s /\
  csv_file s' = csv_file s.
Proof.
  cbv zeta.
  destruct (next_run r d s) as (Hsc & Hk & Hcsv).
  destruct (interact_runs read_csv s (next r d)) as [[_ ->]|[_ [_ ->]]].
  - change (before_run s (next r d)) with s. now repeat split.
  - change (before_run s (next r d)) with s.
    pose proof (run_summary read_csv (rerun_of (next r d))
                  (session_state (fst (run read_csv (frontend_of (next r d)) s))))
      as (_ & Hsame & _).
    destruct (Hsame eq_refl) as (_ & -> & _ & -> & ->). now repeat split.
Qed.

(** X11.  The comparison with [correctAnswer] is exact: for a row whose
    [correctAnswer] is none of "A", "B", "C" (another letter, lower case,
    padded), every submitted answer is judged wrong; the score stays, the
    position advances, and the message names no option. *)
Theorem X11_unknown_correct_answer (s : SessionState) (f : string)
  (df : DataFrame) (row : Question) (r : option Pick) (d : list nat) :
  csv_file s = Some f ->
  shuffled_df s = Some df ->
  answered s = false ->
  0 <= current_question s ->
  nth_error df (Z.to_nat (current_question s)) = Some row ->
  correctAnswer row <> "A" ->
  correctAnswer row <> "B" ->
  correctAnswer row <> "C" ->
  let rt := interact read_csv s (submit r d) in
  score (session_state rt) = score s /\
  current_question (session_state rt) = current_question s + 1 /\
  In (Error "Incorrect! The correct answer is ") (page rt).
Proof.
  destruct s as [csv ans k sel sc sh];
    cbn [csv_file shuffled_df answered current_question score];
    intros -> -> -> Hk Hrow HA HB HC. cbv zeta.
  rewrite (submit_question read_csv f df k sc sel row r d Hk Hrow).
  assert (Hwrong : String.eqb (letter_of r) (correctAnswer row) = false).
  { apply String.eqb_neq. destruct r as [[]|]; cbn [letter_of]; congruence. }
  rewrite Hwrong. unfold incorrect_message.
  apply String.eqb_neq in HA, HB, HC. rewrite HA, HB, HC.
  cbn [session_state page score current_question].
  repeat split. unfold question_widgets.
  do 6 right. left. reflexivity.
Qed.

End Pages.

(** The further properties, applied to the concrete run. *)

Lemma X1_witness :
  In (ScoreBar 1 1) (page (browse_all disk submitted)) /\
  1 = score (session_state (browse_all disk submitted)) /\
  1 = current_question (session_state (browse_all disk submitted)) /\
  0 <= 1 <= 1 /\ 0 < 1.
Proof.
  assert (Hin : In (ScoreBar 1 1) (page (browse_all disk submitted)))
    by (vm_compute; do 8 right; left; reflexivity).
  exact (conj Hin (X1_score_bar_well_defined disk submitted 1 1 Hin)).
Defined.

Lemma X2_witness :
  shuffled_df after_selection = Some [qb; qa] /\
  shuffled_df (interact_from disk after_selection
                 [submit (Some Pick1) []; next None []; submit None []])
  = Some [qb; qa].
Proof.
  exact (conj eq_refl
           (X2_order_never_reshuffled disk after_selection
              [submit (Some Pick1) []; next None []; submit None []]
              [qb; qa] eq_refl)).
Defined.

Lemma X3_witness :
  shuffled_df (interact_all disk selected) = Some [qb; qa] /\
  exists label path rows,
    In (label, path) chapters /\
    disk path = CsvOk rows /\
    Permutation rows [qb; qa] /\ List.length [qb; qa] = List.length rows.
Proof.
  assert (H : shuffled_df (interact_all disk selected) = Some [qb; qa])
    by (vm_compute; reflexivity).
  exact (conj H (proj2 (X3_order_from_chapter_file disk selected) [qb; qa] H)).
Defined.

Lemma X4_witness :
  csv_file initial_session = None /\
  csv_file (session_state
              (interact disk initial_session (selectChapter chapter1 None [])))
  = Some "chapter1.csv".
Proof.
  pose proof (X4_menu_dispatch disk initial_session chapter1 None [] eq_refl)
    as H.
  cbv zeta in H.
  change (chapter_file chapter1) with (Some "chapter1.csv") in H.
  exact (conj eq_refl (proj1 H)).
Defined.

Lemma X5_witness :
  csv_file finished_session = Some "chapter1.csv" /\
  shuffled_df finished_session = Some [qa; qb] /\
  len [qa; qb] <= current_question finished_session /\
  "Submit" <> "Back to Main Menu" /\
  interact disk finished_session (submit None [])
  = {| session_state := finished_session;
       page := finished_page finished_session |}.
Proof.
  assert (Hk : len [qa; qb] <= current_question finished_session)
    by (vm_compute; discriminate).
  assert (Hl : "Submit" <> "Back to Main Menu") by discriminate.
  exact (conj eq_refl (conj eq_refl (conj Hk (conj Hl
           (X5_finished_is_final disk finished_session "chapter1.csv"
              [qa; qb] "Submit" None [] eq_refl eq_refl Hk Hl))))).
Defined.

Lemma X6_witness :
  csv_file after_submit = Some "chapter1.csv" /\
  shuffled_df after_submit = Some [qb; qa] /\
  0 <= current_question after_submit /\
  csv_file (session_state (interact disk after_submit (reset None []))) = None /\
  page (interact disk after_submit (reset None [])) = menu_page.
Proof.
  assert (Hk : 0 <= current_question after_submit)
    by (vm_compute; discriminate).
  destruct (X6_back_shows_menu disk after_submit "chapter1.csv" [qb; qa]
              None [] eq_refl eq_refl Hk) as (Hcsv & _ & _ & _ & _ & Hpage).
  exact (conj eq_refl (conj eq_refl (conj Hk (conj Hcsv Hpage)))).
Defined.

Lemma X8_witness :
  csv_file (session_state (interact disk after_selection (submit None [])))
  = csv_file after_selection /\
  current_question after_selection
  <= current_question
       (session_state (interact disk after_selection (submit None [])))
  <= current_question after_selection + 1.
Proof.
  assert (Hcsv : csv_file (session_state
                             (interact disk after_selection (submit None [])))
                 = csv_file after_selection) by (vm_compute; reflexivity).
  destruct (X8_step_progress disk after_selection (submit None []) Hcsv)
    as (_ & Hk & _).
  exact (conj Hcsv Hk).
Defined.

Lemma X11_witness :
  csv_file lower_session = Some "chapter5.csv" /\
  shuffled_df lower_session = Some [q_lower] /\
  answered lower_session = false /\
  0 <= current_question lower_session /\
  nth_error [q_lower] (Z.to_nat (current_question lower_session))
  = Some q_lower /\
  correctAnswer q_lower <> "A" /\
  correctAnswer q_lower <> "B" /\
  correctAnswer q_lower <> "C" /\
  score (session_state (interact disk lower_session (submit (Some Pick1) [])))
  = score lower_session.
Proof.
  assert (Hk : 0 <= current_question lower_session)
    by (vm_compute; discriminate).
  assert (HA : correctAnswer q_lower <> "A") by discriminate.
  assert (HB : correctAnswer q_lower <> "B") by discriminate.
  assert (HC : correctAnswer q_lower <> "C") by discriminate.
  destruct (X11_unknown_correct_answer disk lower_session "chapter5.csv"
              [q_lower] q_lower (Some Pick1) []
              eq_refl eq_refl eq_refl Hk eq_refl HA HB HC) as (Hsc & _).
  exact (conj eq_refl (conj eq_refl (conj eq_refl (conj Hk (conj eq_refl
           (conj HA (conj HB (conj HC Hsc)))))))).
Defined.

Lemma X12_witness :
  In (chapter1, "chapter1.csv") chapters /\
  csv_file initial_session = None /\
  shuffled_df initial_session = None /\
  interact (fun _ => CsvOk []) initial_session (selectChapter chapter1 None [])
  = {| session_state :=
         {| csv_file := Some "chapter1.csv"; answered := false;
            current_question := 0; selected_answer := None; score := 0;
            shuffled_df := Some [] |};
       page :=
         [Title "Quiz Menu";
          Write "Quiz finished! You've gone through all the questions.";
          Button "Back to Main Menu" false] |}.
Proof.
  assert (Hin : In (chapter1, "chapter1.csv") chapters)
    by (left; reflexivity).
  exact (conj Hin (conj eq_refl (conj eq_refl
           (X12_empty_chapter_is_finished (fun _ => CsvOk []) initial_session
              chapter1 "chapter1.csv" None [] Hin eq_refl eq_refl eq_refl)))).
Defined.

Lemma X13_witness :
  In (chapter1, "chapter1.csv") chapters /\
  csv_file initial_session = None /\
  shuffled_df initial_session = None /\
  disk "chapter1.csv" = CsvOk [qa; qb] /\
  nth_error (sample [1; 0]%nat [qa; qb]) 0 = Some qb /\
  interact disk initial_session (selectChapter chapter1 None [1; 0]%nat)
  = {| session_state :=
         {| csv_file := Some "chapter1.csv"; answered := false;
            current_question := 0; selected_answer := Some (letter_of None);
            score := 0; shuffled_df := Some (sample [1; 0]%nat [qa; qb]) |};
       page := question_widgets 0 qb false ++ page_footer |}.
Proof.
  assert (Hin : In (chapter1, "chapter1.csv") chapters)
    by (left; reflexivity).
  exact (conj Hin (conj eq_refl (conj eq_refl (conj eq_refl (conj eq_refl
           (X13_first_question_page disk initial_session chapter1
              "chapter1.csv" [qa; qb] qb None [1; 0]%nat
              Hin eq_refl eq_refl eq_refl eq_refl)))))).
Defined.
